(** * Vector-Tools: vectors, lines and planes in three dimensions

    A shallow embedding of the Python library (vector_3d.py, line_3d.py,
    plane_3d.py, utils_3d.py) and the properties of its operations.

    Scalars.  The library computes with Python floats, that is, in IEEE
    binary64.  The embedding takes the scalars as real numbers.  The
    theorems below rest on the structure of the code (which branch is
    taken, what is raised, which expression is returned) and, where they
    compute, on laws that binary64 shares with the real numbers:
    commutativity of [+] and [*], [a - b = -(b - a)], exact comparison.
    Read with the operations of binary64 they say the same of the floats
    the code computes.  A statement that needs more than that says so: it
    is then a statement of exact arithmetic, and [Binary64] holds the same
    expression in binary64 to show what rounding does to it.

    Dynamic typing.  The library tests the run-time class of some operands
    ([isinstance]) and reads attributes of whatever object it is handed.
    Operands whose class matters are values of [pyobj]; an operation that
    can raise returns an [outcome].

    Left out: the [__repr__]/[__str__] methods, which format floats as
    text. *)

From Stdlib Require Import Floats.
From Stdlib Require Import Reals Lra List ZArith String Bool.
Import ListNotations.
Open Scope R_scope.

(** ** Exceptions and results *)

(** The exceptions the library raises or runs into.  Message texts are
    dropped, except the shape that [from_numpy] formats into its message
    and the attribute name of an [AttributeError]. *)
Inductive exn : Type :=
| ValueError (shape : list nat)
| TypeError
| AttributeError (attr : string)
| IndexError
| ZeroDivisionError
| NoSolutionError
| InfiniteSolutionError
| NumpyUnmodelled.

(** What a call does: it returns a value or raises. *)
Inductive outcome (A : Type) : Type :=
| Return (a : A)
| Raise (e : exn).

Arguments Return {A} a.
Arguments Raise {A} e.

Definition bind {A B : Type} (c : outcome A) (k : A -> outcome B) : outcome B :=
  match c with
  | Return a => k a
  | Raise e => Raise e
  end.

Notation "x <- c ;; k" := (bind c (fun x => k))
  (at level 61, c at next level, right associativity).

(** ** Comparisons and division of scalars *)

(** [x == y] and [x != y] on scalars: exact comparison. *)
Definition Reqb (x y : R) : bool := if Req_dec_T x y then true else false.
Definition Rneb (x y : R) : bool := negb (Reqb x y).

(** [x / y] on Python floats raises when the divisor is zero.  (When an
    operand is a [numpy.float64], as the components of a vector that came
    out of [from_numpy] are, the quotient by zero is an infinity or [nan]
    with a warning; the embedding has no such values and does not model
    that case.  The one division that the intersection makes is guarded by
    a test of its divisor.) *)
Definition py_div (x y : R) : outcome R :=
  if Reqb y 0 then Raise ZeroDivisionError else Return (x / y).

(** ** The fragment of numpy the library uses *)

(** An array is its shape and its elements in row-major order. *)
Record ndarray : Type := mk_ndarray { shape : list nat; data : list R }.

Definition ndarray_size (a : ndarray) : nat := List.length (data a).

(** The shape accounts for the elements. *)
Definition ndarray_wf (a : ndarray) : Prop :=
  List.length (data a) = fold_right Nat.mul 1%nat (shape a).

(** Equality of shape tuples, as in [np_vec.shape == (3,)]. *)
Fixpoint tuple_eqb (s1 s2 : list nat) : bool :=
  match s1, s2 with
  | [], [] => true
  | n1 :: r1, n2 :: r2 => Nat.eqb n1 n2 && tuple_eqb r1 r2
  | _, _ => false
  end.

(** [np_array([x0, ..., xn])] on a list of scalars: a one-dimensional array. *)
Definition np_array (l : list R) : ndarray :=
  {| shape := [List.length l]; data := l |}.

Fixpoint zip_with (f : R -> R -> R) (l1 l2 : list R) : list R :=
  match l1, l2 with
  | a :: r1, b :: r2 => f a b :: zip_with f r1 r2
  | _, _ => []
  end.

(** Element-wise arithmetic on two arrays of one shape.  On arrays of
    different shapes numpy broadcasts or raises; the library never builds
    such a pair, and that case is left out of the model as
    [NumpyUnmodelled]. *)
Definition ndarray_binop (f : R -> R -> R) (a b : ndarray) : outcome ndarray :=
  if tuple_eqb (shape a) (shape b)
  then Return {| shape := shape a; data := zip_with f (data a) (data b) |}
  else Raise NumpyUnmodelled.

(** [a + b] and [a - b] on arrays. *)
Definition ndarray_add : ndarray -> ndarray -> outcome ndarray := ndarray_binop Rplus.
Definition ndarray_sub : ndarray -> ndarray -> outcome ndarray := ndarray_binop Rminus.

(** [s * a] with a scalar [s], and [-a]. *)
Definition ndarray_rmul (s : R) (a : ndarray) : ndarray :=
  {| shape := shape a; data := map (Rmult s) (data a) |}.
Definition ndarray_neg (a : ndarray) : ndarray :=
  {| shape := shape a; data := map Ropp (data a) |}.

(** [a[i]] on a one-dimensional array.  (On an array of more dimensions
    the index selects a sub-array; the library indexes only after it has
    checked that the shape is [(3,)].) *)
Definition ndarray_getitem (a : ndarray) (i : nat) : outcome R :=
  match shape a with
  | [_] => match nth_error (data a) i with
           | Some r => Return r
           | None => Raise IndexError
           end
  | _ => Raise NumpyUnmodelled
  end.

(** [numpy.cross] on two arrays of shape [(3,)]. *)
Definition np_cross (a b : ndarray) : outcome ndarray :=
  if tuple_eqb (shape a) [3%nat] && tuple_eqb (shape b) [3%nat] then
    match data a, data b with
    | [a0; a1; a2], [b0; b1; b2] =>
        Return (np_array [a1 * b2 - a2 * b1; a2 * b0 - a0 * b2; a0 * b1 - a1 * b0])
    | _, _ => Raise NumpyUnmodelled
    end
  else Raise NumpyUnmodelled.

(** [numpy.dot] on two arrays of shape [(3,)]. *)
Definition np_dot (a b : ndarray) : outcome R :=
  if tuple_eqb (shape a) [3%nat] && tuple_eqb (shape b) [3%nat] then
    match data a, data b with
    | [a0; a1; a2], [b0; b1; b2] => Return (a0 * b0 + a1 * b1 + a2 * b2)
    | _, _ => Raise NumpyUnmodelled
    end
  else Raise NumpyUnmodelled.

(** [numpy.linalg.norm] with its default arguments: the square root of the
    sum of the squares of all the elements, here in exact arithmetic (in
    binary64 the squares can underflow and overflow). *)
Definition np_norm (a : ndarray) : R :=
  sqrt (fold_right (fun e acc => e * e + acc) 0 (data a)).

(** [a / s] with a scalar [s], element by element.  With a zero divisor
    numpy does not raise: it fills the array with [nan] or [inf], values
    that the real numbers do not have, and that case is left out of the
    model as [NumpyUnmodelled]. *)
Definition ndarray_div_scalar (a : ndarray) (s : R) : outcome ndarray :=
  if Reqb s 0 then Raise NumpyUnmodelled
  else Return {| shape := shape a; data := map (fun e => e / s) (data a) |}.

(** ** Run-time values *)

(** An operand as the library can receive it; [V] is the class of vectors. *)
Inductive pyobj (V : Type) : Type :=
| PyFloat (r : R)
| PyInt (n : Z)
| PyStr (s : string)
| PyNone
| PyArray (a : ndarray)
| PyVector (v : V).

Arguments PyFloat {V} r.
Arguments PyInt {V} n.
Arguments PyStr {V} s.
Arguments PyNone {V}.
Arguments PyArray {V} a.
Arguments PyVector {V} v.

(** [isinstance(s, float)]: an [int] is not a [float]. *)
Definition isinstance_float {V : Type} (s : pyobj V) : bool :=
  match s with
  | PyFloat _ => true
  | _ => false
  end.

(** ** class Vector3D (vector_3d.py) *)

Module Vector3D.

Record t : Type := mk { x : R; y : R; z : R; np_vec : ndarray }.

Definition __init__ (x y z : R) : t :=
  {| x := x; y := y; z := z; np_vec := np_array [x; y; z] |}.

Definition from_numpy (np_vec : ndarray) : outcome t :=
  if tuple_eqb (shape np_vec) [3%nat] then
    e0 <- ndarray_getitem np_vec 0 ;;
    e1 <- ndarray_getitem np_vec 1 ;;
    e2 <- ndarray_getitem np_vec 2 ;;
    Return (__init__ e0 e1 e2)
  else Raise (ValueError (shape np_vec)).

Definition __add__ (self : t) (other : pyobj t) : outcome t :=
  match other with
  | PyVector other =>
      s <- ndarray_add (np_vec self) (np_vec other) ;;
      from_numpy s
  | _ => Raise TypeError
  end.

Definition __sub__ (self : t) (other : pyobj t) : outcome t :=
  match other with
  | PyVector other =>
      s <- ndarray_sub (np_vec self) (np_vec other) ;;
      from_numpy s
  | _ => Raise TypeError
  end.

Definition __mul__ (self : t) (s : pyobj t) : outcome t :=
  if isinstance_float s || isinstance_float s then
    match s with
    | PyFloat s => from_numpy (ndarray_rmul s (np_vec self))
    | _ => Raise TypeError
    end
  else Raise TypeError.

Definition norm (self : t) : R := np_norm (np_vec self).

Definition normalized (self : t) : outcome t :=
  q <- ndarray_div_scalar (np_vec self) (norm self) ;;
  from_numpy q.

(** The vectors the class builds: every instance comes out of
    [__init__], which mirrors the components in [np_vec]. *)
Inductive constructed : t -> Prop :=
| constructed_init (x y z : R) : constructed (__init__ x y z).

End Vector3D.

Definition obj : Type := pyobj Vector3D.t.

(** [o.x], [o.y], [o.z] for an object of [pyobj]: only a vector has them.
    ([pyobj] holds the kinds of object the library itself hands to the
    constructor of [Plane3D], vectors and arrays, besides scalars, strings
    and [None]; an object of another class that has attributes named [x],
    [y], [z] is outside it.) *)
Definition getattr_xyz (o : obj) : outcome Vector3D.t :=
  match o with
  | PyVector v => Return v
  | _ => Raise (AttributeError "x")
  end.

(** ** class Line3D (line_3d.py) *)

Module Line3D.

Record t : Type := mk {
  position : Vector3D.t;
  direction : Vector3D.t;
  a : R; b : R; c : R;
  x0 : R; y0 : R; z0 : R
}.

Definition __init__ (position direction : Vector3D.t) : t :=
  {| position := position;
     direction := direction;
     a := Vector3D.x direction;
     b := Vector3D.y direction;
     c := Vector3D.z direction;
     x0 := Vector3D.x position;
     y0 := Vector3D.y position;
     z0 := Vector3D.z position |}.

Definition from_two_points (a b : Vector3D.t) : outcome t :=
  d <- Vector3D.__sub__ b (PyVector a) ;;
  Return (__init__ a d).

Definition x (self : t) (t : R) : R := (t * a self) + x0 self.
Definition y (self : t) (t : R) : R := (t * b self) + y0 self.
Definition z (self : t) (t : R) : R := (t * c self) + z0 self.

Definition pos (self : t) (t : R) : Vector3D.t :=
  Vector3D.__init__ (x self t) (y self t) (z self t).

End Line3D.

(** ** class Utils3D (utils_3d.py), first part *)

(** [Utils3D.cross]: hands back what [np_cross] returns, an array. *)
Definition cross (a b : Vector3D.t) : outcome obj :=
  r <- np_cross (Vector3D.np_vec a) (Vector3D.np_vec b) ;;
  Return (PyArray r).

Definition dot (a b : Vector3D.t) : outcome R :=
  np_dot (Vector3D.np_vec a) (Vector3D.np_vec b).

(** ** class Plane3D (plane_3d.py) *)

Module Plane3D.

Record t : Type := mk {
  position : Vector3D.t;
  normal : Vector3D.t;
  a : R; b : R; c : R; d : R
}.

(** The constructor reads [normal.x], [normal.y], [normal.z] and then the
    components of [position]; an argument without these attributes makes
    it raise at the first read. *)
Definition __init__ (position normal : obj) : outcome t :=
  n <- getattr_xyz normal ;;
  p <- getattr_xyz position ;;
  Return {| position := p;
            normal := n;
            a := Vector3D.x n;
            b := Vector3D.y n;
            c := Vector3D.z n;
            d := (Vector3D.x n * Vector3D.x p) +
                 (Vector3D.y n * Vector3D.y p) +
                 (Vector3D.z n * Vector3D.z p) |}.

Definition from_two_lines (a b : Line3D.t) : outcome t :=
  n <- cross (Line3D.direction a) (Line3D.direction b) ;;
  __init__ (PyVector (Line3D.position a)) n.

(** The body of [from_three_points] is [pass]: it returns [None]. *)
Definition from_three_points (a b c : obj) : obj := PyNone.

Definition x (self : t) (y z : R) : outcome R :=
  q <- py_div ((Vector3D.y (normal self) * (y - Vector3D.y (position self))) +
               (Vector3D.z (normal self) * (z - Vector3D.z (position self))))
              (-1 * Vector3D.x (normal self)) ;;
  Return (q + Vector3D.x (position self)).

Definition y (self : t) (x z : R) : outcome R :=
  q <- py_div ((Vector3D.x (normal self) * (x - Vector3D.x (position self))) +
               (Vector3D.z (normal self) * (z - Vector3D.z (position self))))
              (-1 * Vector3D.y (normal self)) ;;
  Return (q + Vector3D.y (position self)).

Definition z (self : t) (x y : R) : outcome R :=
  q <- py_div ((Vector3D.x (normal self) * (x - Vector3D.x (position self))) +
               (Vector3D.y (normal self) * (y - Vector3D.y (position self))))
              (-1 * Vector3D.z (normal self)) ;;
  Return (q + Vector3D.z (position self)).

End Plane3D.

(** ** class Utils3D (utils_3d.py), second part *)

(** The two local variables of [intersect_line_plane]. *)
Definition t_term (line : Line3D.t) (plane : Plane3D.t) : R :=
  (Plane3D.a plane * Line3D.a line) + (Plane3D.b plane * Line3D.b line) +
  (Plane3D.c plane * Line3D.c line).

Definition const_term (line : Line3D.t) (plane : Plane3D.t) : R :=
  (Plane3D.a plane * Line3D.x0 line) + (Plane3D.b plane * Line3D.y0 line) +
  (Plane3D.c plane * Line3D.z0 line).

(** [Utils3D.intersect_line_plane]; a Python function whose branches all
    fail to apply returns [None]. *)
Definition intersect_line_plane (line : Line3D.t) (plane : Plane3D.t) : outcome obj :=
  let t_term := t_term line plane in
  let const_term := const_term line plane in
  if Rneb t_term 0 then
    t <- py_div (Plane3D.d plane - const_term) t_term ;;
    Return (PyVector (Line3D.pos line t))
  else if Reqb t_term 0 && Rneb (Plane3D.d plane) const_term then
    Raise NoSolutionError
  else if Reqb t_term 0 && Reqb (Plane3D.d plane) const_term then
    Raise InfiniteSolutionError
  else Return PyNone.

(** ** The arithmetic of the code: binary64 *)

(** The expressions of [Plane3D.__init__] (the coefficient [d]) and of
    [Plane3D.x], written as in plane_3d.py and evaluated in IEEE binary64,
    the arithmetic of Python floats; [plane_equation] is the left side of
    [a*x + b*y + c*z = d].  The arguments are the components of the normal
    [(nx, ny, nz)] and of the position [(px, py, pz)]. *)
Module Binary64.

Definition plane_d (nx ny nz px py pz : float) : float :=
  ((nx * px) + (ny * py) + (nz * pz))%float.

Definition plane_x (nx ny nz px py pz y z : float) : float :=
  ((((ny * (y - py)) + (nz * (z - pz))) / (-1 * nx)) + px)%float.

Definition plane_equation (a b c x y z : float) : float :=
  (a * x + b * y + c * z)%float.

End Binary64.

(** ** Concrete inputs *)

(** The line through the origin along the z axis, and the plane z = 5. *)
Definition z_axis : Line3D.t :=
  Line3D.__init__ (Vector3D.__init__ 0 0 0) (Vector3D.__init__ 0 0 1).

Definition plane_z5 : Plane3D.t :=
  {| Plane3D.position := Vector3D.__init__ 0 0 5;
     Plane3D.normal := Vector3D.__init__ 0 0 1;
     Plane3D.a := 0; Plane3D.b := 0; Plane3D.c := 1; Plane3D.d := 5 |}.

(** The plane z = 1, a line parallel to it and a line inside it. *)
Definition plane_z1 : Plane3D.t :=
  {| Plane3D.position := Vector3D.__init__ 0 0 1;
     Plane3D.normal := Vector3D.__init__ 0 0 1;
     Plane3D.a := 0; Plane3D.b := 0; Plane3D.c := 1; Plane3D.d := 1 |}.

Definition line_below : Line3D.t :=
  Line3D.__init__ (Vector3D.__init__ 0 0 0) (Vector3D.__init__ 1 0 0).

Definition line_inside : Line3D.t :=
  Line3D.__init__ (Vector3D.__init__ 0 0 1) (Vector3D.__init__ 1 0 0).

(** Two lines through the origin, along the x axis and along the y axis. *)
Definition x_axis : Line3D.t :=
  Line3D.__init__ (Vector3D.__init__ 0 0 0) (Vector3D.__init__ 1 0 0).

Definition y_axis : Line3D.t :=
  Line3D.__init__ (Vector3D.__init__ 0 0 0) (Vector3D.__init__ 0 1 0).

(** The plane through (1, 2, 3) with normal (2, 0, 1). *)
Definition slanted_plane : Plane3D.t :=
  {| Plane3D.position := Vector3D.__init__ 1 2 3;
     Plane3D.normal := Vector3D.__init__ 2 0 1;
     Plane3D.a := 2; Plane3D.b := 0; Plane3D.c := 1;
     Plane3D.d := 2 * 1 + 0 * 2 + 1 * 3 |}.

(** A 1 x 3 matrix: three elements, two dimensions. *)
Definition row_matrix : ndarray := {| shape := [1%nat; 3%nat]; data := [1; 2; 3] |}.

(** ** Scalars: the comparisons decide equality *)

Lemma Reqb_true_iff (x y : R) : Reqb x y = true <-> x = y.
Proof.
  unfold Reqb. destruct (Req_dec_T x y) as [e | n]; split; intro H;
    solve [assumption | reflexivity | discriminate | contradiction].
Qed.

Lemma Reqb_false_iff (x y : R) : Reqb x y = false <-> x <> y.
Proof.
  unfold Reqb. destruct (Req_dec_T x y) as [e | n]; split; intro H;
    solve [assumption | reflexivity | discriminate | contradiction].
Qed.

Lemma Rneb_true_iff (x y : R) : Rneb x y = true <-> x <> y.
Proof.
  unfold Rneb. rewrite negb_true_iff. apply Reqb_false_iff.
Qed.

Lemma Rneb_false_iff (x y : R) : Rneb x y = false <-> x = y.
Proof.
  unfold Rneb. rewrite negb_false_iff. apply Reqb_true_iff.
Qed.

Lemma Reqb_refl (x : R) : Reqb x x = true.
Proof. apply Reqb_true_iff. reflexivity. Qed.

Lemma py_div_nonzero (x y : R) : y <> 0 -> py_div x y = Return (x / y).
Proof.
  intro Hy. unfold py_div.
  apply Reqb_false_iff in Hy. rewrite Hy. reflexivity.
Qed.

Lemma py_div_zero (x : R) : py_div x 0 = Raise ZeroDivisionError.
Proof. unfold py_div. rewrite Reqb_refl. reflexivity. Qed.

(** ** Line-plane intersection *)

(** The three cases of [intersect_line_plane], one equation each. *)
Lemma intersect_unique (line : Line3D.t) (plane : Plane3D.t) :
  t_term line plane <> 0 ->
  intersect_line_plane line plane =
    Return (PyVector (Line3D.pos line
      ((Plane3D.d plane - const_term line plane) / t_term line plane))).
Proof.
  intro Ht. unfold intersect_line_plane.
  assert (Hb : Rneb (t_term line plane) 0 = true) by (apply Rneb_true_iff; exact Ht).
  rewrite Hb, (py_div_nonzero _ _ Ht). reflexivity.
Qed.

Lemma intersect_parallel (line : Line3D.t) (plane : Plane3D.t) :
  t_term line plane = 0 -> Plane3D.d plane <> const_term line plane ->
  intersect_line_plane line plane = Raise NoSolutionError.
Proof.
  intros Ht Hd. unfold intersect_line_plane.
  rewrite Ht. unfold Rneb at 1. rewrite Reqb_refl. cbn [negb andb].
  apply Rneb_true_iff in Hd. rewrite Hd. reflexivity.
Qed.

Lemma intersect_contained (line : Line3D.t) (plane : Plane3D.t) :
  t_term line plane = 0 -> Plane3D.d plane = const_term line plane ->
  intersect_line_plane line plane = Raise InfiniteSolutionError.
Proof.
  intros Ht Hd. unfold intersect_line_plane.
  rewrite Ht, Hd. unfold Rneb. rewrite !Reqb_refl. reflexivity.
Qed.

(** The implicit [return None] at the end is never reached. *)
Lemma intersect_not_None (line : Line3D.t) (plane : Plane3D.t) :
  intersect_line_plane line plane <> Return PyNone.
Proof.
  destruct (Req_dec_T (t_term line plane) 0) as [Ht | Ht].
  - destruct (Req_dec_T (Plane3D.d plane) (const_term line plane)) as [Hd | Hd].
    + rewrite (intersect_contained _ _ Ht Hd). discriminate.
    + rewrite (intersect_parallel _ _ Ht Hd). discriminate.
  - rewrite (intersect_unique _ _ Ht). discriminate.
Qed.

(** C1.  [intersect_line_plane] raises [NoSolutionError] exactly when
    [t_term] is 0 and [plane.d] differs from [const_term], and raises
    [InfiniteSolutionError] exactly when [t_term] is 0 and [plane.d] equals
    [const_term]; the comparisons are exact equalities of scalars. *)
Theorem intersect_line_plane_raises_iff (line : Line3D.t) (plane : Plane3D.t) :
  t_term line plane =
    Plane3D.a plane * Line3D.a line + Plane3D.b plane * Line3D.b line +
    Plane3D.c plane * Line3D.c line /\
  const_term line plane =
    Plane3D.a plane * Line3D.x0 line + Plane3D.b plane * Line3D.y0 line +
    Plane3D.c plane * Line3D.z0 line /\
  (intersect_line_plane line plane = Raise NoSolutionError <->
     t_term line plane = 0 /\ Plane3D.d plane <> const_term line plane) /\
  (intersect_line_plane line plane = Raise InfiniteSolutionError <->
     t_term line plane = 0 /\ Plane3D.d plane = const_term line plane).
Proof.
  split; [reflexivity | split; [reflexivity | ]].
  destruct (Req_dec_T (t_term line plane) 0) as [Ht | Ht].
  - destruct (Req_dec_T (Plane3D.d plane) (const_term line plane)) as [Hd | Hd].
    + rewrite (intersect_contained _ _ Ht Hd). split; split.
      * discriminate.
      * intros [_ Hne]. contradiction.
      * intros _. split; assumption.
      * reflexivity.
    + rewrite (intersect_parallel _ _ Ht Hd). split; split.
      * intros _. split; assumption.
      * reflexivity.
      * discriminate.
      * intros [_ He]. contradiction.
  - rewrite (intersect_unique _ _ Ht). split; split.
    + discriminate.
    + intros [H0 _]. contradiction.
    + discriminate.
    + intros [H0 _]. contradiction.
Qed.

(** In exact arithmetic (this lemma does not survive rounding), the point
    of the line at parameter [t] satisfies the plane's equation exactly
    when [t] is the quotient the function computes. *)
Lemma on_plane_iff (line : Line3D.t) (plane : Plane3D.t) (t : R) :
  t_term line plane <> 0 ->
  (Plane3D.a plane * Line3D.x line t + Plane3D.b plane * Line3D.y line t +
   Plane3D.c plane * Line3D.z line t = Plane3D.d plane
   <-> t = (Plane3D.d plane - const_term line plane) / t_term line plane).
Proof.
  intro Ht.
  assert (E : Plane3D.a plane * Line3D.x line t + Plane3D.b plane * Line3D.y line t +
              Plane3D.c plane * Line3D.z line t
              = t * t_term line plane + const_term line plane).
  { unfold Line3D.x, Line3D.y, Line3D.z, t_term, const_term. ring. }
  rewrite E. split; intro H.
  - apply (Rmult_eq_reg_r (t_term line plane)); [ | exact Ht].
    unfold Rdiv. rewrite Rmult_assoc, Rinv_l, Rmult_1_r by exact Ht. lra.
  - rewrite H. unfold Rdiv. rewrite Rmult_assoc, Rinv_l, Rmult_1_r by exact Ht. lra.
Qed.


Lemma t_term_z_axis_plane_z5 : t_term z_axis plane_z5 = 1.
Proof. unfold t_term, z_axis, plane_z5. simpl. ring. Qed.


Lemma plane_z5_constructed :
  Plane3D.__init__ (PyVector (Vector3D.__init__ 0 0 5)) (PyVector (Vector3D.__init__ 0 0 1))
  = Return plane_z5.
Proof.
  unfold Plane3D.__init__, plane_z5. cbn. do 2 f_equal. ring.
Qed.

(** The worked examples of the three cases. *)
Example intersect_z_axis_plane_z5 :
  intersect_line_plane z_axis plane_z5 = Return (PyVector (Vector3D.__init__ 0 0 5)).
Proof.
  rewrite intersect_unique by (rewrite t_term_z_axis_plane_z5; lra).
  rewrite t_term_z_axis_plane_z5.
  unfold Line3D.pos, Line3D.x, Line3D.y, Line3D.z, const_term, Vector3D.__init__. cbn.
  repeat f_equal; try field.
Qed.

Example intersect_line_below_plane_z1 :
  intersect_line_plane line_below plane_z1 = Raise NoSolutionError.
Proof.
  apply intersect_parallel.
  - unfold t_term, line_below, plane_z1. simpl. ring.
  - unfold const_term, line_below, plane_z1. simpl. lra.
Qed.

Example intersect_line_inside_plane_z1 :
  intersect_line_plane line_inside plane_z1 = Raise InfiniteSolutionError.
Proof.
  apply intersect_contained.
  - unfold t_term, line_inside, plane_z1. simpl. ring.
  - unfold const_term, line_inside, plane_z1. simpl. ring.
Qed.

(** ** Lines *)

(** C7.  For a line built from a position and a direction, [pos(t)] is the
    vector [(a*t + x0, b*t + y0, c*t + z0)], where [a, b, c] are the
    components of the direction as given (nothing is normalized) and
    [x0, y0, z0] those of the position; its components are the values of
    the scalar evaluators [x(t)], [y(t)], [z(t)]. *)
Theorem line_pos_components (position direction : Vector3D.t) (t : R) :
  let line := Line3D.__init__ position direction in
  (Line3D.a line = Vector3D.x direction /\
   Line3D.b line = Vector3D.y direction /\
   Line3D.c line = Vector3D.z direction /\
   Line3D.x0 line = Vector3D.x position /\
   Line3D.y0 line = Vector3D.y position /\
   Line3D.z0 line = Vector3D.z position) /\
  Line3D.pos line t =
    Vector3D.__init__ (Vector3D.x direction * t + Vector3D.x position)
                      (Vector3D.y direction * t + Vector3D.y position)
                      (Vector3D.z direction * t + Vector3D.z position) /\
  Line3D.pos line t =
    Vector3D.__init__ (Line3D.x line t) (Line3D.y line t) (Line3D.z line t) /\
  Line3D.x line t = Line3D.a line * t + Line3D.x0 line /\
  Line3D.y line t = Line3D.b line * t + Line3D.y0 line /\
  Line3D.z line t = Line3D.c line * t + Line3D.z0 line.
Proof.
  intro line. split.
  - repeat split.
  - split; [ | split; [reflexivity | ]].
    + unfold Line3D.pos, Line3D.x, Line3D.y, Line3D.z. subst line. cbn [Line3D.__init__
        Line3D.a Line3D.b Line3D.c Line3D.x0 Line3D.y0 Line3D.z0].
      rewrite (Rmult_comm t (Vector3D.x direction)),
              (Rmult_comm t (Vector3D.y direction)),
              (Rmult_comm t (Vector3D.z direction)).
      reflexivity.
    + unfold Line3D.x, Line3D.y, Line3D.z. repeat split; ring.
Qed.

(** The worked example of the specification. *)
Example line_pos_example :
  Line3D.pos (Line3D.__init__ (Vector3D.__init__ 0 0 0) (Vector3D.__init__ 1 2 3)) 2
  = Vector3D.__init__ 2 4 6.
Proof.
  unfold Line3D.pos, Line3D.x, Line3D.y, Line3D.z. cbn.
  replace (2 * 1 + 0) with 2 by ring.
  replace (2 * 2 + 0) with 4 by ring.
  replace (2 * 3 + 0) with 6 by ring.
  reflexivity.
Qed.

(** ** Planes *)

Lemma plane_init_vectors (p n : Vector3D.t) :
  Plane3D.__init__ (PyVector p) (PyVector n) =
  Return {| Plane3D.position := p;
            Plane3D.normal := n;
            Plane3D.a := Vector3D.x n;
            Plane3D.b := Vector3D.y n;
            Plane3D.c := Vector3D.z n;
            Plane3D.d := Vector3D.x n * Vector3D.x p + Vector3D.y n * Vector3D.y p +
                         Vector3D.z n * Vector3D.z p |}.
Proof. reflexivity. Qed.

(** C8, counterexample.  In binary64, on the plane through the origin with
    normal (49, 1, 0), [x(1, 0)] is the rounded quotient of -1 by 49, and
    [a*x + b*y + c*z] then evaluates to 2^-53 and not to [d], which is 0. *)
Lemma plane_x_binary64_off_plane :
  Binary64.plane_x 49 1 0 0 0 0 1 0 = (-0x1.4e5e0a72f0539p-6)%float /\
  Binary64.plane_equation 49 1 0 (Binary64.plane_x 49 1 0 0 0 0 1 0) 1 0 = 0x1p-53%float /\
  Binary64.plane_d 49 1 0 0 0 0 = 0%float /\
  PrimFloat.eqb
    (Binary64.plane_equation 49 1 0 (Binary64.plane_x 49 1 0 0 0 0 1 0) 1 0)
    (Binary64.plane_d 49 1 0 0 0 0) = false.
Proof.
  split; [reflexivity | split; [reflexivity | split; reflexivity]].
Qed.

(** C8, amended.  On a plane built from a position [p] and a normal whose
    x component [a] is not 0, [x(y, z)] returns
    [(b*(y - p.y) + c*(z - p.z)) / (-1*a) + p.x], and with this expression
    evaluated in exact real arithmetic the point [(x, y, z)] satisfies
    [a*x + b*y + c*z = d].  (The scalars of this statement are real
    numbers; the lemma above shows the equation failing in binary64.) *)
Theorem plane_x_on_plane (p n : Vector3D.t) (plane : Plane3D.t) (y z : R) :
  Plane3D.__init__ (PyVector p) (PyVector n) = Return plane ->
  Plane3D.a plane <> 0 ->
  exists x : R,
    Plane3D.x plane y z = Return x /\
    x = (Plane3D.b plane * (y - Vector3D.y p) + Plane3D.c plane * (z - Vector3D.z p))
        / (-1 * Plane3D.a plane) + Vector3D.x p /\
    Plane3D.a plane * x + Plane3D.b plane * y + Plane3D.c plane * z = Plane3D.d plane.
Proof.
  intros Hinit Ha. rewrite plane_init_vectors in Hinit.
  injection Hinit as <-. cbn [Plane3D.a Plane3D.b Plane3D.c Plane3D.d] in *.
  unfold Plane3D.x. cbn [Plane3D.normal Plane3D.position].
  rewrite py_div_nonzero by lra. cbn [bind].
  eexists. split; [reflexivity | split; [reflexivity | ]]. field; assumption.
Qed.

Lemma plane_x_on_plane_witness :
  Plane3D.a slanted_plane <> 0 /\
  exists x : R,
    Plane3D.x slanted_plane 4 7 = Return x /\
    x = (Plane3D.b slanted_plane * (4 - Vector3D.y (Vector3D.__init__ 1 2 3)) +
         Plane3D.c slanted_plane * (7 - Vector3D.z (Vector3D.__init__ 1 2 3)))
        / (-1 * Plane3D.a slanted_plane) + Vector3D.x (Vector3D.__init__ 1 2 3) /\
    Plane3D.a slanted_plane * x + Plane3D.b slanted_plane * 4 +
    Plane3D.c slanted_plane * 7 = Plane3D.d slanted_plane.
Proof.
  assert (Ha : Plane3D.a slanted_plane <> 0) by (simpl; lra).
  split; [exact Ha | ].
  apply (plane_x_on_plane (Vector3D.__init__ 1 2 3) (Vector3D.__init__ 2 0 1)
           slanted_plane 4 7).
  - reflexivity.
  - exact Ha.
Defined.

(** ** Arrays *)

Lemma tuple_eqb_eq (s1 s2 : list nat) : tuple_eqb s1 s2 = true <-> s1 = s2.
Proof.
  revert s2. induction s1 as [ | n1 r1 IH]; intros [ | n2 r2]; simpl.
  - split; reflexivity.
  - split; discriminate.
  - split; discriminate.
  - rewrite andb_true_iff, Nat.eqb_eq, IH. split.
    + intros [-> ->]. reflexivity.
    + intro E. injection E as -> ->. split; reflexivity.
Qed.

Lemma tuple_eqb_neq (s1 s2 : list nat) : tuple_eqb s1 s2 = false <-> s1 <> s2.
Proof.
  rewrite <- tuple_eqb_eq. destruct (tuple_eqb s1 s2); split; intro H;
    solve [discriminate | reflexivity | contradiction H; reflexivity].
Qed.

(** A well-formed array of shape [(3,)] holds three scalars. *)
Lemma shape3_data (arr : ndarray) :
  ndarray_wf arr -> shape arr = [3%nat] ->
  exists a0 a1 a2 : R, data arr = [a0; a1; a2].
Proof.
  unfold ndarray_wf. intros Hwf Hs. rewrite Hs in Hwf. simpl in Hwf.
  destruct (data arr) as [ | a0 [ | a1 [ | a2 [ | a3 r]]]]; try discriminate.
  exists a0, a1, a2. reflexivity.
Qed.

Lemma zip_with_length (f : R -> R -> R) (l1 l2 : list R) :
  List.length l1 = List.length l2 ->
  List.length (zip_with f l1 l2) = List.length l1.
Proof.
  revert l2. induction l1 as [ | a r1 IH]; intros [ | b r2] H; simpl in *;
    try reflexivity; try discriminate.
  f_equal. apply IH. injection H as H. exact H.
Qed.

(** Element-wise arithmetic keeps the common shape, and well-formedness. *)
Lemma ndarray_binop_shape (f : R -> R -> R) (a b s : ndarray) :
  ndarray_binop f a b = Return s -> shape s = shape a /\ shape a = shape b.
Proof.
  unfold ndarray_binop. destruct (tuple_eqb (shape a) (shape b)) eqn:E.
  - intro H. injection H as <-. apply tuple_eqb_eq in E. split; [reflexivity | exact E].
  - discriminate.
Qed.

Lemma ndarray_binop_wf (f : R -> R -> R) (a b s : ndarray) :
  ndarray_wf a -> ndarray_wf b -> ndarray_binop f a b = Return s -> ndarray_wf s.
Proof.
  unfold ndarray_binop, ndarray_wf. intros Ha Hb.
  destruct (tuple_eqb (shape a) (shape b)) eqn:E; [ | discriminate].
  apply tuple_eqb_eq in E. intro H. injection H as <-. simpl.
  rewrite zip_with_length; [exact Ha | ]. rewrite Ha, Hb, E. reflexivity.
Qed.

(** ** Vectors *)

Lemma from_numpy_np_array3 (a0 a1 a2 : R) :
  Vector3D.from_numpy (np_array [a0; a1; a2]) = Return (Vector3D.__init__ a0 a1 a2).
Proof. reflexivity. Qed.

Lemma constructed_np_vec (v : Vector3D.t) :
  Vector3D.constructed v ->
  Vector3D.np_vec v = np_array [Vector3D.x v; Vector3D.y v; Vector3D.z v].
Proof. intros [x y z]. reflexivity. Qed.

Lemma constructed_wf (v : Vector3D.t) :
  Vector3D.constructed v -> ndarray_wf (Vector3D.np_vec v).
Proof. intros [x y z]. reflexivity. Qed.

(** What [from_numpy] returns is a constructed vector. *)
Lemma from_numpy_constructed (arr : ndarray) (v : Vector3D.t) :
  Vector3D.from_numpy arr = Return v -> Vector3D.constructed v.
Proof.
  unfold Vector3D.from_numpy.
  destruct (tuple_eqb (shape arr) [3%nat]); [ | discriminate].
  destruct (ndarray_getitem arr 0) as [e0 | ?]; [ | discriminate].
  destruct (ndarray_getitem arr 1) as [e1 | ?]; [ | discriminate].
  destruct (ndarray_getitem arr 2) as [e2 | ?]; [ | discriminate].
  cbn [bind]. intro H. injection H as <-. constructor.
Qed.

(** C10.  For vectors [u], [v] that the class has built, the array
    [u.np_vec + v.np_vec] (and [u.np_vec - v.np_vec]) has shape [(3,)] and
    three elements, so [from_numpy] does not take its [ValueError] branch:
    [u + v] and [u - v] return a vector and never raise [ValueError]. *)
Theorem add_sub_never_invalid_shape (u v : Vector3D.t) :
  Vector3D.constructed u -> Vector3D.constructed v ->
  (exists s : ndarray,
     ndarray_add (Vector3D.np_vec u) (Vector3D.np_vec v) = Return s /\
     shape s = [3%nat] /\ ndarray_size s = 3%nat /\
     Vector3D.__add__ u (PyVector v) =
       Return (Vector3D.__init__ (Vector3D.x u + Vector3D.x v)
                                 (Vector3D.y u + Vector3D.y v)
                                 (Vector3D.z u + Vector3D.z v))) /\
  (exists s : ndarray,
     ndarray_sub (Vector3D.np_vec u) (Vector3D.np_vec v) = Return s /\
     shape s = [3%nat] /\ ndarray_size s = 3%nat /\
     Vector3D.__sub__ u (PyVector v) =
       Return (Vector3D.__init__ (Vector3D.x u - Vector3D.x v)
                                 (Vector3D.y u - Vector3D.y v)
                                 (Vector3D.z u - Vector3D.z v))) /\
  (forall sh : list nat,
     Vector3D.__add__ u (PyVector v) <> Raise (ValueError sh) /\
     Vector3D.__sub__ u (PyVector v) <> Raise (ValueError sh)).
Proof.
  intros [ux uy uz] [vx vy vz].
  split; [ | split].
  - eexists. repeat split.
  - eexists. repeat split.
  - intro sh. split; discriminate.
Qed.

Lemma add_sub_never_invalid_shape_witness :
  Vector3D.__add__ (Vector3D.__init__ 1 2 3) (PyVector (Vector3D.__init__ 4 5 6)) =
    Return (Vector3D.__init__ (1 + 4) (2 + 5) (3 + 6)) /\
  Vector3D.__sub__ (Vector3D.__init__ 1 2 3) (PyVector (Vector3D.__init__ 4 5 6)) =
    Return (Vector3D.__init__ (1 - 4) (2 - 5) (3 - 6)).
Proof.
  destruct (add_sub_never_invalid_shape
              (Vector3D.__init__ 1 2 3) (Vector3D.__init__ 4 5 6)
              (Vector3D.constructed_init 1 2 3) (Vector3D.constructed_init 4 5 6))
    as [[sa [_ [_ [_ Hadd]]]] [[ss [_ [_ [_ Hsub]]]] _]].
  split; [exact Hadd | exact Hsub].
Defined.

(** C6, counterexample.  A 1 x 3 matrix has exactly three elements, and
    [from_numpy] rejects it: the test is on the shape, not on the number of
    elements. *)
Lemma from_numpy_row_matrix_rejected :
  ndarray_wf row_matrix /\
  ndarray_size row_matrix = 3%nat /\
  Vector3D.from_numpy row_matrix = Raise (ValueError [1%nat; 3%nat]) /\
  (forall v : Vector3D.t, Vector3D.from_numpy row_matrix <> Return v).
Proof.
  split; [reflexivity | split; [reflexivity | split; [reflexivity | ]]].
  intro v. discriminate.
Qed.

(** C6, amended.  For a well-formed array, [from_numpy] returns the vector
    [(arr[0], arr[1], arr[2])] when the shape of the array is [(3,)], that
    is, one dimension of three elements, and otherwise raises [ValueError]
    carrying the shape; there is no other failure. *)
Theorem from_numpy_by_shape (arr : ndarray) :
  ndarray_wf arr ->
  (shape arr = [3%nat] ->
     exists a0 a1 a2 : R,
       ndarray_getitem arr 0 = Return a0 /\
       ndarray_getitem arr 1 = Return a1 /\
       ndarray_getitem arr 2 = Return a2 /\
       Vector3D.from_numpy arr = Return (Vector3D.__init__ a0 a1 a2)) /\
  (shape arr <> [3%nat] ->
     Vector3D.from_numpy arr = Raise (ValueError (shape arr))).
Proof.
  intro Hwf. split; intro Hs.
  - destruct (shape3_data arr Hwf Hs) as [a0 [a1 [a2 Hd]]].
    exists a0, a1, a2.
    unfold Vector3D.from_numpy, ndarray_getitem. rewrite Hs, Hd.
    repeat split.
  - unfold Vector3D.from_numpy.
    apply tuple_eqb_neq in Hs. rewrite Hs. reflexivity.
Qed.

Lemma from_numpy_by_shape_witness :
  ndarray_wf (np_array [1; 2; 3]) /\
  exists a0 a1 a2 : R,
    ndarray_getitem (np_array [1; 2; 3]) 0 = Return a0 /\
    ndarray_getitem (np_array [1; 2; 3]) 1 = Return a1 /\
    ndarray_getitem (np_array [1; 2; 3]) 2 = Return a2 /\
    Vector3D.from_numpy (np_array [1; 2; 3]) = Return (Vector3D.__init__ a0 a1 a2).
Proof.
  assert (Hwf : ndarray_wf (np_array [1; 2; 3])) by reflexivity.
  split; [exact Hwf | ].
  apply (proj1 (from_numpy_by_shape (np_array [1; 2; 3]) Hwf)).
  reflexivity.
Defined.

(** Multiplying by a float works as documented. *)
Lemma mul_float (x y z s : R) :
  Vector3D.__mul__ (Vector3D.__init__ x y z) (PyFloat s) =
  Return (Vector3D.__init__ (s * x) (s * y) (s * z)).
Proof. reflexivity. Qed.

(** The operand test of [__mul__] lets floats through and nothing else. *)
Lemma mul_returns_iff_float (v : Vector3D.t) (s : obj) :
  Vector3D.constructed v ->
  ((exists w : Vector3D.t, Vector3D.__mul__ v s = Return w) <->
   (exists r : R, s = PyFloat r)).
Proof.
  intros [x y z]. split.
  - intros [w Hw]. destruct s as [r | n | str | | a | u]; try discriminate Hw.
    exists r. reflexivity.
  - intros [r ->]. eexists. apply mul_float.
Qed.

(** C5, as the code behaves.  An integer operand is numeric, and [__mul__]
    raises [TypeError] on it: the test is [isinstance(s, float)] twice and
    never [isinstance(s, int)]. *)
Theorem mul_int_raises_TypeError (v : Vector3D.t) (n : Z) :
  Vector3D.__mul__ v (PyInt n) = Raise TypeError.
Proof. reflexivity. Qed.

(** ** Cross product *)

(** C4, as the code behaves.  [cross] returns the array that [np_cross]
    computes, not a [Vector3D]; the elements of the array are the
    components of the cross product. *)
Theorem cross_returns_array (ux uy uz vx vy vz : R) :
  cross (Vector3D.__init__ ux uy uz) (Vector3D.__init__ vx vy vz) =
    Return (PyArray (np_array [uy * vz - uz * vy; uz * vx - ux * vz; ux * vy - uy * vx])) /\
  (forall w : Vector3D.t,
     cross (Vector3D.__init__ ux uy uz) (Vector3D.__init__ vx vy vz) <> Return (PyVector w)).
Proof.
  split; [reflexivity | ]. intro w. discriminate.
Qed.

(** Whatever the operands, [cross] does not return a vector. *)
Lemma cross_never_vector (a b w : Vector3D.t) : cross a b <> Return (PyVector w).
Proof.
  unfold cross. destruct (np_cross (Vector3D.np_vec a) (Vector3D.np_vec b)); discriminate.
Qed.

(** C9.  The cross product is anticommutative: the array [cross(u, v)] is
    the element-wise negation of the array [cross(v, u)]. *)
Theorem cross_anticommutative (ux uy uz vx vy vz : R) :
  let u := Vector3D.__init__ ux uy uz in
  let v := Vector3D.__init__ vx vy vz in
  exists a b : ndarray,
    cross u v = Return (PyArray a) /\
    cross v u = Return (PyArray b) /\
    a = ndarray_neg b.
Proof.
  intros u v. eexists. eexists.
  split; [reflexivity | split; [reflexivity | ]].
  unfold ndarray_neg, np_array. cbn [shape data map List.length].
  f_equal. repeat (f_equal; try ring).
Qed.

(** ** Planes from two lines *)

(** An array has no attribute [x]: the constructor of [Plane3D] raises. *)
Lemma plane_init_array_normal (position : obj) (n : ndarray) :
  Plane3D.__init__ position (PyArray n) = Raise (AttributeError "x").
Proof. reflexivity. Qed.

(** No pair of lines gives a plane. *)
Lemma from_two_lines_never_returns (a b : Line3D.t) (plane : Plane3D.t) :
  Plane3D.from_two_lines a b <> Return plane.
Proof.
  unfold Plane3D.from_two_lines, cross.
  destruct (np_cross (Vector3D.np_vec (Line3D.direction a))
                     (Vector3D.np_vec (Line3D.direction b))); discriminate.
Qed.

(** C3, as the code behaves.  [from_two_lines] passes the array that
    [cross] returns to the constructor as the normal, and the constructor
    raises [AttributeError] when it reads [normal.x]: no plane is built. *)
Theorem from_two_lines_raises (p1 p2 : Vector3D.t) (x1 y1 z1 x2 y2 z2 : R) :
  Plane3D.from_two_lines (Line3D.__init__ p1 (Vector3D.__init__ x1 y1 z1))
                         (Line3D.__init__ p2 (Vector3D.__init__ x2 y2 z2))
  = Raise (AttributeError "x").
Proof. reflexivity. Qed.

Example from_two_lines_axes :
  Plane3D.from_two_lines x_axis y_axis = Raise (AttributeError "x").
Proof. reflexivity. Qed.

(** * Further properties of the library *)

(** ** Vector arithmetic *)

Lemma init_ext (a b c a' b' c' : R) :
  a = a' -> b = b' -> c = c' ->
  Vector3D.__init__ a b c = Vector3D.__init__ a' b' c'.
Proof. intros -> -> ->. reflexivity. Qed.

Lemma add_init (a b c a' b' c' : R) :
  Vector3D.__add__ (Vector3D.__init__ a b c) (PyVector (Vector3D.__init__ a' b' c'))
  = Return (Vector3D.__init__ (a + a') (b + b') (c + c')).
Proof. reflexivity. Qed.

Lemma sub_init (a b c a' b' c' : R) :
  Vector3D.__sub__ (Vector3D.__init__ a b c) (PyVector (Vector3D.__init__ a' b' c'))
  = Return (Vector3D.__init__ (a - a') (b - b') (c - c')).
Proof. reflexivity. Qed.

Lemma getitem_not_TypeError (a : ndarray) (i : nat) :
  ndarray_getitem a i <> Raise TypeError.
Proof.
  unfold ndarray_getitem.
  destruct (shape a) as [ | n [ | m r]]; try discriminate.
  destruct (nth_error (data a) i); discriminate.
Qed.

Lemma from_numpy_not_TypeError (a : ndarray) :
  Vector3D.from_numpy a <> Raise TypeError.
Proof.
  unfold Vector3D.from_numpy.
  destruct (tuple_eqb (shape a) [3%nat]); [ | discriminate].
  destruct (ndarray_getitem a 0) as [e0 | e] eqn:E0; cbn [bind].
  2:{ intro H. injection H as ->. exact (getitem_not_TypeError _ _ E0). }
  destruct (ndarray_getitem a 1) as [e1 | e] eqn:E1; cbn [bind].
  2:{ intro H. injection H as ->. exact (getitem_not_TypeError _ _ E1). }
  destruct (ndarray_getitem a 2) as [e2 | e] eqn:E2; cbn [bind].
  2:{ intro H. injection H as ->. exact (getitem_not_TypeError _ _ E2). }
  discriminate.
Qed.

Lemma binop_not_TypeError (f : R -> R -> R) (a b : ndarray) :
  ndarray_binop f a b <> Raise TypeError.
Proof.
  unfold ndarray_binop. destruct (tuple_eqb (shape a) (shape b)); discriminate.
Qed.

(** X2.  Vector addition is commutative, and subtraction in the other
    order gives, component by component, the opposite. *)
Theorem add_commutative_sub_antisymmetric (u v : Vector3D.t) :
  Vector3D.constructed u -> Vector3D.constructed v ->
  Vector3D.__add__ u (PyVector v) = Vector3D.__add__ v (PyVector u) /\
  exists d e : Vector3D.t,
    Vector3D.__sub__ u (PyVector v) = Return d /\
    Vector3D.__sub__ v (PyVector u) = Return e /\
    Vector3D.x d = - Vector3D.x e /\
    Vector3D.y d = - Vector3D.y e /\
    Vector3D.z d = - Vector3D.z e.
Proof.
  intros [ux uy uz] [vx vy vz]. split.
  - rewrite !add_init. f_equal. apply init_ext; ring.
  - eexists. eexists. rewrite !sub_init.
    split; [reflexivity | split; [reflexivity | ]].
    cbn [Vector3D.__init__ Vector3D.x Vector3D.y Vector3D.z].
    repeat split; ring.
Qed.

Lemma add_commutative_sub_antisymmetric_witness :
  Vector3D.__add__ (Vector3D.__init__ 1 2 3) (PyVector (Vector3D.__init__ 4 5 6)) =
  Vector3D.__add__ (Vector3D.__init__ 4 5 6) (PyVector (Vector3D.__init__ 1 2 3)).
Proof.
  apply (add_commutative_sub_antisymmetric
           (Vector3D.__init__ 1 2 3) (Vector3D.__init__ 4 5 6)
           (Vector3D.constructed_init 1 2 3) (Vector3D.constructed_init 4 5 6)).
Defined.

(** X3.  [__add__] and [__sub__] raise [TypeError] exactly when the other
    operand is not a [Vector3D]. *)
Theorem add_sub_TypeError_iff (self : Vector3D.t) (other : obj) :
  (Vector3D.__add__ self other = Raise TypeError <->
     forall v : Vector3D.t, other <> PyVector v) /\
  (Vector3D.__sub__ self other = Raise TypeError <->
     forall v : Vector3D.t, other <> PyVector v).
Proof.
  assert (Hbind : forall f v,
    (s <- ndarray_binop f (Vector3D.np_vec self) (Vector3D.np_vec v) ;;
     Vector3D.from_numpy s) <> Raise TypeError).
  { intros f v.
    destruct (ndarray_binop f (Vector3D.np_vec self) (Vector3D.np_vec v)) as [s | e] eqn:E;
      cbn [bind].
    - apply from_numpy_not_TypeError.
    - intro H. injection H as ->. exact (binop_not_TypeError _ _ _ E). }
  split.
  - destruct other as [r | n | str | | a | v]; cbn;
      try (split; [intros _ w; discriminate | reflexivity]).
    split; intro H; exfalso.
    + exact (Hbind Rplus v H).
    + exact (H v eq_refl).
  - destruct other as [r | n | str | | a | v]; cbn;
      try (split; [intros _ w; discriminate | reflexivity]).
    split; intro H; exfalso.
    + exact (Hbind Rminus v H).
    + exact (H v eq_refl).
Qed.

Lemma binop_from_numpy_constructed (f : R -> R -> R) (a b : ndarray) (w : Vector3D.t) :
  (s <- ndarray_binop f a b ;; Vector3D.from_numpy s) = Return w ->
  Vector3D.constructed w.
Proof.
  destruct (ndarray_binop f a b) as [s | e]; cbn [bind]; [ | discriminate].
  apply from_numpy_constructed.
Qed.

(** X5.  The invariant of the class: whatever vector [from_numpy],
    [__add__], [__sub__], [__mul__] or [normalized] returns, on any operands,
    has an [np_vec] of shape [(3,)] that holds its components [x, y, z]. *)
Theorem returned_vectors_mirror_components
    (self : Vector3D.t) (other : obj) (arr : ndarray) (w : Vector3D.t) :
  Vector3D.from_numpy arr = Return w \/
  Vector3D.__add__ self other = Return w \/
  Vector3D.__sub__ self other = Return w \/
  Vector3D.__mul__ self other = Return w \/
  Vector3D.normalized self = Return w ->
  Vector3D.np_vec w = np_array [Vector3D.x w; Vector3D.y w; Vector3D.z w] /\
  shape (Vector3D.np_vec w) = [3%nat].
Proof.
  intro H.
  assert (C : Vector3D.constructed w).
  { destruct H as [H | [H | [H | [H | H]]]].
    - exact (from_numpy_constructed _ _ H).
    - destruct other as [r | n | str | | a | v]; try discriminate H.
      exact (binop_from_numpy_constructed _ _ _ _ H).
    - destruct other as [r | n | str | | a | v]; try discriminate H.
      exact (binop_from_numpy_constructed _ _ _ _ H).
    - destruct other as [r | n | str | | a | v]; try discriminate H.
      exact (from_numpy_constructed _ _ H).
    - unfold Vector3D.normalized in H.
      destruct (ndarray_div_scalar (Vector3D.np_vec self) (Vector3D.norm self)) as [q | e];
        cbn [bind] in H; [ | discriminate].
      exact (from_numpy_constructed _ _ H). }
  destruct C as [x y z]. split; reflexivity.
Qed.

Lemma returned_vectors_mirror_components_witness :
  Vector3D.np_vec (Vector3D.__init__ 5 7 9) =
    np_array [Vector3D.x (Vector3D.__init__ 5 7 9);
              Vector3D.y (Vector3D.__init__ 5 7 9);
              Vector3D.z (Vector3D.__init__ 5 7 9)] /\
  shape (Vector3D.np_vec (Vector3D.__init__ 5 7 9)) = [3%nat].
Proof.
  apply (returned_vectors_mirror_components
           (Vector3D.__init__ 5 7 9) PyNone (np_array [5; 7; 9]) (Vector3D.__init__ 5 7 9)).
  left. reflexivity.
Defined.

(** X6.  Converting the array of a vector back gives the vector:
    [from_numpy(v.np_vec)] returns [v]. *)
Theorem from_numpy_of_np_vec (v : Vector3D.t) :
  Vector3D.constructed v -> Vector3D.from_numpy (Vector3D.np_vec v) = Return v.
Proof. intros [x y z]. reflexivity. Qed.

Lemma from_numpy_of_np_vec_witness :
  Vector3D.from_numpy (Vector3D.np_vec (Vector3D.__init__ 1 2 3)) =
  Return (Vector3D.__init__ 1 2 3).
Proof.
  apply (from_numpy_of_np_vec (Vector3D.__init__ 1 2 3)).
  apply Vector3D.constructed_init.
Defined.

(** X7.  The other way round: the vector that [from_numpy] makes of a
    well-formed array keeps that very array as its [np_vec]. *)
Theorem np_vec_of_from_numpy (arr : ndarray) (v : Vector3D.t) :
  ndarray_wf arr -> Vector3D.from_numpy arr = Return v -> Vector3D.np_vec v = arr.
Proof.
  intros Hwf H.
  assert (Hs : shape arr = [3%nat]).
  { apply tuple_eqb_eq. unfold Vector3D.from_numpy in H.
    destruct (tuple_eqb (shape arr) [3%nat]); [reflexivity | discriminate]. }
  destruct (shape3_data arr Hwf Hs) as [a0 [a1 [a2 Hd]]].
  destruct arr as [sh dt]. cbn [shape data] in *. subst sh dt.
  cbn in H. injection H as <-. reflexivity.
Qed.

Lemma np_vec_of_from_numpy_witness :
  Vector3D.np_vec (Vector3D.__init__ 1 2 3) = np_array [1; 2; 3].
Proof.
  apply (np_vec_of_from_numpy (np_array [1; 2; 3]) (Vector3D.__init__ 1 2 3)).
  - reflexivity.
  - reflexivity.
Defined.

(** ** Dot product *)

Lemma dot_init (a b c a' b' c' : R) :
  dot (Vector3D.__init__ a b c) (Vector3D.__init__ a' b' c')
  = Return (a * a' + b * b' + c * c').
Proof. reflexivity. Qed.

(** X11.  [dot(u, v)] is [u.x*v.x + u.y*v.y + u.z*v.z], and the dot
    product is symmetric. *)
Theorem dot_formula_symmetric (u v : Vector3D.t) :
  Vector3D.constructed u -> Vector3D.constructed v ->
  dot u v = Return (Vector3D.x u * Vector3D.x v + Vector3D.y u * Vector3D.y v +
                    Vector3D.z u * Vector3D.z v) /\
  dot u v = dot v u.
Proof.
  intros [ux uy uz] [vx vy vz]. rewrite !dot_init. split.
  - reflexivity.
  - f_equal. ring.
Qed.

Lemma dot_formula_symmetric_witness :
  dot (Vector3D.__init__ 1 2 3) (Vector3D.__init__ 4 5 6) =
  dot (Vector3D.__init__ 4 5 6) (Vector3D.__init__ 1 2 3).
Proof.
  apply (dot_formula_symmetric (Vector3D.__init__ 1 2 3) (Vector3D.__init__ 4 5 6)
           (Vector3D.constructed_init 1 2 3) (Vector3D.constructed_init 4 5 6)).
Defined.

(** ** Lines *)

(** X15.  The line through two points [a] and [b] has position [a] and,
    as direction, the vector that [b - a] returns; its coefficients
    [a, b, c] are the components of [b - a] and [x0, y0, z0] those of [a]. *)
Theorem from_two_points_position_direction (a b : Vector3D.t) :
  Vector3D.constructed a -> Vector3D.constructed b ->
  exists (line : Line3D.t) (d : Vector3D.t),
    Vector3D.__sub__ b (PyVector a) = Return d /\
    Line3D.from_two_points a b = Return line /\
    Line3D.position line = a /\
    Line3D.direction line = d /\
    (Line3D.a line = Vector3D.x b - Vector3D.x a /\
     Line3D.b line = Vector3D.y b - Vector3D.y a /\
     Line3D.c line = Vector3D.z b - Vector3D.z a) /\
    (Line3D.x0 line = Vector3D.x a /\
     Line3D.y0 line = Vector3D.y a /\
     Line3D.z0 line = Vector3D.z a).
Proof.
  intros [ax ay az] [bx by' bz].
  eexists. eexists. split; [apply sub_init | ].
  split.
  - unfold Line3D.from_two_points. rewrite sub_init. reflexivity.
  - repeat split.
Qed.

Lemma from_two_points_position_direction_witness :
  exists (line : Line3D.t) (d : Vector3D.t),
    Vector3D.__sub__ (Vector3D.__init__ 4 6 8) (PyVector (Vector3D.__init__ 1 2 3)) = Return d /\
    Line3D.from_two_points (Vector3D.__init__ 1 2 3) (Vector3D.__init__ 4 6 8) = Return line /\
    Line3D.position line = Vector3D.__init__ 1 2 3 /\
    Line3D.direction line = d /\
    (Line3D.a line = Vector3D.x (Vector3D.__init__ 4 6 8) - Vector3D.x (Vector3D.__init__ 1 2 3) /\
     Line3D.b line = Vector3D.y (Vector3D.__init__ 4 6 8) - Vector3D.y (Vector3D.__init__ 1 2 3) /\
     Line3D.c line = Vector3D.z (Vector3D.__init__ 4 6 8) - Vector3D.z (Vector3D.__init__ 1 2 3)) /\
    (Line3D.x0 line = Vector3D.x (Vector3D.__init__ 1 2 3) /\
     Line3D.y0 line = Vector3D.y (Vector3D.__init__ 1 2 3) /\
     Line3D.z0 line = Vector3D.z (Vector3D.__init__ 1 2 3)).
Proof.
  apply (from_two_points_position_direction
           (Vector3D.__init__ 1 2 3) (Vector3D.__init__ 4 6 8)
           (Vector3D.constructed_init 1 2 3) (Vector3D.constructed_init 4 6 8)).
Defined.



(** ** Intersections *)

(** X22.  [intersect_line_plane] has three outcomes and no other: it
    returns a vector, or raises [NoSolutionError], or raises
    [InfiniteSolutionError].  It never returns [None] and never raises
    [ZeroDivisionError]: the division is guarded by the test on [t_term]. *)
Theorem intersect_three_outcomes (line : Line3D.t) (plane : Plane3D.t) :
  ((exists v : Vector3D.t, intersect_line_plane line plane = Return (PyVector v)) \/
   intersect_line_plane line plane = Raise NoSolutionError \/
   intersect_line_plane line plane = Raise InfiniteSolutionError) /\
  intersect_line_plane line plane <> Return PyNone /\
  intersect_line_plane line plane <> Raise ZeroDivisionError.
Proof.
  destruct (Req_dec_T (t_term line plane) 0) as [Ht | Ht].
  - destruct (Req_dec_T (Plane3D.d plane) (const_term line plane)) as [Hd | Hd].
    + rewrite (intersect_contained _ _ Ht Hd).
      split; [right; right; reflexivity | split; discriminate].
    + rewrite (intersect_parallel _ _ Ht Hd).
      split; [right; left; reflexivity | split; discriminate].
  - rewrite (intersect_unique _ _ Ht).
    split; [left; eexists; reflexivity | split; discriminate].
Qed.

(** X23.  [intersect_line_plane] returns a point only when [t_term] is
    not 0, and every point it returns is a point of the line: it is
    [line.pos(t)] for [t = (plane.d - const_term) / t_term]. *)
Theorem returned_point_is_line_point (line : Line3D.t) (plane : Plane3D.t) (v : Vector3D.t) :
  intersect_line_plane line plane = Return (PyVector v) ->
  t_term line plane <> 0 /\
  v = Line3D.pos line ((Plane3D.d plane - const_term line plane) / t_term line plane).
Proof.
  intro Hv.
  destruct (Req_dec_T (t_term line plane) 0) as [Ht | Ht].
  - exfalso.
    destruct (Req_dec_T (Plane3D.d plane) (const_term line plane)) as [Hd | Hd].
    + rewrite (intersect_contained _ _ Ht Hd) in Hv. discriminate.
    + rewrite (intersect_parallel _ _ Ht Hd) in Hv. discriminate.
  - rewrite (intersect_unique _ _ Ht) in Hv. injection Hv as <-.
    split; [exact Ht | reflexivity].
Qed.

Lemma returned_point_is_line_point_witness :
  t_term z_axis plane_z5 <> 0 /\
  Line3D.pos z_axis ((Plane3D.d plane_z5 - const_term z_axis plane_z5) / t_term z_axis plane_z5)
  = Line3D.pos z_axis ((Plane3D.d plane_z5 - const_term z_axis plane_z5) / t_term z_axis plane_z5).
Proof.
  apply (returned_point_is_line_point z_axis plane_z5).
  apply intersect_unique. rewrite t_term_z_axis_plane_z5. lra.
Defined.


